(** * Hive script runner ([runner.py]): a shallow embedding and its contract

    [runner.py] is the one-shot wrapper the Node.js ScriptRunner starts as
    [python runner.py <script_path> <input_path> <output_path>].  It reads a
    JSON input file, imports the user script, calls its [run(inputs)] and
    writes the returned dict (or a structured [__error] object) to the output
    path.

    The embedding follows the source statement by statement.  What the source
    delegates to the interpreter and its libraries is modelled by its
    documented behaviour:
    - Python values and the documents [json.dump] produces are inductive
      types; [dumps] is [json.dump] with and without [default=];
    - exceptions carry their class ([except Exception] only catches
      instances of [Exception]), their [str()] and their formatted traceback;
    - the files, the user script and the output device are an environment
      ([world]) that answers each primitive; the effects of one invocation
      (file contents, the diagnostic stream, the sequence of primitive calls)
      are threaded through a small state-and-exception monad.

    User code is represented by what it does to the runner: the module body
    leaves a namespace or raises, [run] returns a value or raises.  A path
    answers every open of one invocation the same way, [str] of an object
    returns, and printing to the diagnostic stream does not fail.  Looking
    [run] up on the loaded module is a lookup in its namespace: a module
    that defines a module-level [__getattr__] is not represented. *)

From stdpp Require Import base strings list gmap pretty.

(** ** Python values *)

(** Any object without a JSON representation, as far as the runner observes
    it: [type(o).__name__] and [str(o)]. *)
Record pyobject := PyObject { ob_type : string; ob_str : string }.

(** Dictionary keys (hashable values).  A float is identified by its
    [repr]. *)
Inductive pykey :=
| KStr (s : string)
| KInt (n : Z)
| KFloat (r : string)
| KBool (b : bool)
| KNone
| KOther (o : pyobject).

#[local] Unset Elimination Schemes.
Inductive pyval :=
| PNone
| PBool (b : bool)
| PInt (n : Z)
| PFloat (r : string)
| PStr (s : string)
| PList (xs : list pyval)
| PTuple (xs : list pyval)
| PDict (kvs : list (pykey * pyval))
| PObj (o : pyobject).
#[local] Set Elimination Schemes.

(** [type(v).__name__] *)
Definition type_name (v : pyval) : string :=
  match v with
  | PNone => "NoneType"
  | PBool _ => "bool"
  | PInt _ => "int"
  | PFloat _ => "float"
  | PStr _ => "str"
  | PList _ => "list"
  | PTuple _ => "tuple"
  | PDict _ => "dict"
  | PObj o => ob_type o
  end.

(** [key.__class__.__name__] *)
Definition key_type_name (k : pykey) : string :=
  match k with
  | KStr _ => "str"
  | KInt _ => "int"
  | KFloat _ => "float"
  | KBool _ => "bool"
  | KNone => "NoneType"
  | KOther o => ob_type o
  end.

(** [isinstance(v, dict)] *)
Definition is_dict (v : pyval) : bool :=
  match v with PDict _ => true | _ => false end.

(** ** JSON documents *)

#[local] Unset Elimination Schemes.
Inductive json :=
| JNull
| JBool (b : bool)
| JInt (n : Z)
| JFloat (r : string)
| JStr (s : string)
| JArr (xs : list json)
| JObj (kvs : list (string * json)).
#[local] Set Elimination Schemes.

(** The encoder's [floatstr], used for float keys. *)
Definition floatstr (r : string) : string :=
  if decide (r = "nan") then "NaN"
  else if decide (r = "inf") then "Infinity"
  else if decide (r = "-inf") then "-Infinity"
  else r.

(** Key coercion of [json.dump] ([skipkeys=False]): [str] keys are kept,
    [float], [bool], [None] and [int] keys are printed, anything else raises
    [TypeError] with the message returned on the left. *)
Definition dump_key (k : pykey) : string + string :=
  match k with
  | KStr s => inr s
  | KFloat r => inr (floatstr r)
  | KBool true => inr "true"
  | KBool false => inr "false"
  | KNone => inr "null"
  | KInt n => inr (pretty n)
  | KOther _ =>
      inl ("keys must be str, int, float, bool or None, not " +:+ key_type_name k)
  end.

(** [json.dump(v, f, default=dflt)] as far as the document is concerned:
    the document written, or the message of the [TypeError] raised.
    [dflt = None] is the call without [default=]; [dflt = Some d] calls [d]
    on every object the encoder does not know and encodes the string it
    returns.  [default] is never applied to keys. *)
Fixpoint dumps (dflt : option (pyobject -> string)) (v : pyval) : string + json :=
  match v with
  | PNone => inr JNull
  | PBool b => inr (JBool b)
  | PInt n => inr (JInt n)
  | PFloat r => inr (JFloat r)
  | PStr s => inr (JStr s)
  | PList xs | PTuple xs =>
      match
        (fix items (xs : list pyval) : string + list json :=
           match xs with
           | [] => inr []
           | x :: xs' =>
               match dumps dflt x with
               | inl e => inl e
               | inr j =>
                   match items xs' with
                   | inl e => inl e
                   | inr js => inr (j :: js)
                   end
               end
           end) xs
      with
      | inl e => inl e
      | inr js => inr (JArr js)
      end
  | PDict kvs =>
      match
        (fix members (kvs : list (pykey * pyval)) : string + list (string * json) :=
           match kvs with
           | [] => inr []
           | (k, x) :: kvs' =>
               match dump_key k with
               | inl e => inl e
               | inr ks =>
                   match dumps dflt x with
                   | inl e => inl e
                   | inr j =>
                       match members kvs' with
                       | inl e => inl e
                       | inr js => inr ((ks, j) :: js)
                       end
                   end
               end
           end) kvs
      with
      | inl e => inl e
      | inr js => inr (JObj js)
      end
  | PObj o =>
      match dflt with
      | Some d => inr (JStr (d o))
      | None => inl ("Object of type " +:+ ob_type o +:+ " is not JSON serializable")
      end
  end.

(** [str], as passed for [default=] *)
Definition str (o : pyobject) : string := ob_str o.

(** The two loops of [dumps], as functions of their own. *)
Fixpoint dump_items (dflt : option (pyobject -> string)) (xs : list pyval)
  : string + list json :=
  match xs with
  | [] => inr []
  | x :: xs' =>
      match dumps dflt x with
      | inl e => inl e
      | inr j =>
          match dump_items dflt xs' with
          | inl e => inl e
          | inr js => inr (j :: js)
          end
      end
  end.

Fixpoint dump_members (dflt : option (pyobject -> string)) (kvs : list (pykey * pyval))
  : string + list (string * json) :=
  match kvs with
  | [] => inr []
  | (k, x) :: kvs' =>
      match dump_key k with
      | inl e => inl e
      | inr ks =>
          match dumps dflt x with
          | inl e => inl e
          | inr j =>
              match dump_members dflt kvs' with
              | inl e => inl e
              | inr js => inr ((ks, j) :: js)
              end
          end
      end
  end.

#[global] Instance pyobject_eq_dec : EqDecision pyobject.
Proof. solve_decision. Defined.

#[global] Instance pykey_eq_dec : EqDecision pykey.
Proof. solve_decision. Defined.

(** [d[k] = v] on a dictionary kept in insertion order. *)
Fixpoint dict_set (k : pykey) (v : pyval) (d : list (pykey * pyval))
  : list (pykey * pyval) :=
  match d with
  | [] => [(k, v)]
  | (k', v') :: d' =>
      if decide (k = k') then (k, v) :: d' else (k', v') :: dict_set k v d'
  end.

(** [json.load] on a document: objects become dicts (a repeated name keeps
    its last value), arrays become lists. *)
Fixpoint loads (j : json) : pyval :=
  match j with
  | JNull => PNone
  | JBool b => PBool b
  | JInt n => PInt n
  | JFloat r => PFloat r
  | JStr s => PStr s
  | JArr xs =>
      PList ((fix items (xs : list json) : list pyval :=
                match xs with
                | [] => []
                | x :: xs' => loads x :: items xs'
                end) xs)
  | JObj kvs =>
      PDict ((fix members (kvs : list (string * json)) (d : list (pykey * pyval)) :=
                match kvs with
                | [] => d
                | (k, x) :: kvs' => members kvs' (dict_set (KStr k) (loads x) d)
                end) kvs [])
  end.

Fixpoint load_items (xs : list json) : list pyval :=
  match xs with
  | [] => []
  | x :: xs' => loads x :: load_items xs'
  end.

Fixpoint load_members (kvs : list (string * json)) (d : list (pykey * pyval))
  : list (pykey * pyval) :=
  match kvs with
  | [] => d
  | (k, x) :: kvs' => load_members kvs' (dict_set (KStr k) (loads x) d)
  end.

(** *** Classes of values the contract speaks of *)

Definition is_str_key (k : pykey) : bool :=
  match k with KStr _ => true | _ => false end.

(** JSON values: what [json.load] can return.  A JSON-object value is a
    JSON value that is a dict. *)
Fixpoint is_json_value (v : pyval) : bool :=
  match v with
  | PNone | PBool _ | PInt _ | PFloat _ | PStr _ => true
  | PList xs => forallb is_json_value xs
  | PDict kvs =>
      forallb (fun kv => match kv with (k, x) => is_str_key k && is_json_value x end) kvs
      && bool_decide (NoDup (kvs.*1))
  | PTuple _ | PObj _ => false
  end.



(** The policy in the contract's words: every value without a JSON
    representation replaced by its string representation (the [ob_str] the
    object carries), everything else left as it is.  Nothing here refers to
    what [main] passes for [default=]. *)
Fixpoint coerce (v : pyval) : pyval :=
  match v with
  | PList xs => PList (map coerce xs)
  | PTuple xs => PTuple (map coerce xs)
  | PDict kvs => PDict (map (fun kv => match kv with (k, x) => (k, coerce x) end) kvs)
  | PObj o => PStr (ob_str o)
  | _ => v
  end.

(** No value without a JSON representation inside. *)
Fixpoint is_native (v : pyval) : bool :=
  match v with
  | PList xs | PTuple xs => forallb is_native xs
  | PDict kvs => forallb (fun kv => match kv with (_, x) => is_native x end) kvs
  | PObj _ => false
  | _ => true
  end.

(** Structural induction on values, through the lists. *)
Section pyval_ind.
Context (P : pyval -> Prop).
Context (HNone : P PNone) (HBool : forall b, P (PBool b)) (HInt : forall n, P (PInt n))
        (HFloat : forall r, P (PFloat r)) (HStr : forall s, P (PStr s))
        (HList : forall xs, Forall P xs -> P (PList xs))
        (HTuple : forall xs, Forall P xs -> P (PTuple xs))
        (HDict : forall kvs, Forall (fun kv => P kv.2) kvs -> P (PDict kvs))
        (HObj : forall o, P (PObj o)).

Fixpoint pyval_ind (v : pyval) : P v :=
  match v with
  | PNone => HNone
  | PBool b => HBool b
  | PInt n => HInt n
  | PFloat r => HFloat r
  | PStr s => HStr s
  | PList xs =>
      HList xs ((fix go (xs : list pyval) : Forall P xs :=
                   match xs with
                   | [] => Forall_nil_2 P
                   | x :: xs' => Forall_cons_2 P x xs' (pyval_ind x) (go xs')
                   end) xs)
  | PTuple xs =>
      HTuple xs ((fix go (xs : list pyval) : Forall P xs :=
                    match xs with
                    | [] => Forall_nil_2 P
                    | x :: xs' => Forall_cons_2 P x xs' (pyval_ind x) (go xs')
                    end) xs)
  | PDict kvs =>
      HDict kvs ((fix go (kvs : list (pykey * pyval)) : Forall (fun kv => P kv.2) kvs :=
                    match kvs with
                    | [] => Forall_nil_2 _
                    | (k, x) :: kvs' =>
                        Forall_cons_2 (fun kv => P kv.2) (k, x) kvs' (pyval_ind x) (go kvs')
                    end) kvs)
  | PObj o => HObj o
  end.
End pyval_ind.

(** ** Exceptions *)

(** [except Exception] catches instances of [Exception] only: [SystemExit]
    (raised by [sys.exit]) and the other direct subclasses of [BaseException]
    ([KeyboardInterrupt], [GeneratorExit], user classes) pass through it. *)
Inductive exc_class :=
| ExceptionClass
| SystemExitClass (code : Z)
| BaseExceptionClass.

(** An exception in flight: its class, [str(e)] and
    [traceback.format_exc()]. *)
Record exn := Exn { exn_class : exc_class; exn_str : string; exn_tb : string }.

Definition is_Exception (e : exn) : bool :=
  match exn_class e with ExceptionClass => true | _ => false end.

(** ** The environment of one invocation *)

(** [open(path, "r", encoding="utf-8")] followed by [json.load]: the decoded
    value, or [str(e)] of the exception raised (missing or unreadable file,
    malformed JSON, bad encoding; all of them instances of [Exception]). *)
Inductive read_result :=
| ReadRaises (detail : string)
| ReadOk (v : pyval).

(** A module attribute: callable (with what calling it on one argument does:
    raise, or return a value) or not. *)
Inductive attr :=
| Callable (f : pyval -> exn + pyval)
| NotCallable (v : pyval).

(** What importing the file at a path does: [spec_from_file_location] gives
    no usable spec; executing the module raises; or the module body runs to
    its end and leaves a namespace. *)
Inductive load_result :=
| NoSpec
| ExecRaises (e : exn)
| ExecOk (ns : gmap string attr).

(** How a path answers [open(path, "w")] and the writes that follow. *)
Inductive device :=
| Writable
| OpenRaises (detail : string)
| WriteRaises (detail : string).

Record world := World {
  input_at : string -> read_result;
  script_at : string -> load_result;
  device_at : string -> device
}.

(** ** The state one invocation acts on *)

(** A file that holds a JSON document is identified with the document;
    [Truncated] is a file opened for writing whose document was not
    completed. *)
Inductive content :=
| Doc (j : json)
| Truncated.

(** The primitive calls the runner makes, in order. *)
Inductive event :=
| OpenRead (path : string)
| FindSpec (name path : string)
| ExecModule (name path : string)
| CallRun (arg : pyval)
| OpenWrite (path : string).

Record state := State {
  files : gmap string content;
  stderr : list string;
  sys_modules : gset string;
  trace : list event
}.

Definition log (ev : event) (s : state) : state :=
  State (files s) (stderr s) (sys_modules s) (trace s ++ [ev]).

Definition set_file (path : string) (c : content) (s : state) : state :=
  State (<[path := c]> (files s)) (stderr s) (sys_modules s) (trace s).

(** ** State and exceptions *)

Definition M (A : Type) : Type := state -> state * (exn + A).

Definition ret {A} (a : A) : M A := fun s => (s, inr a).

Definition bind {A B} (m : M A) (k : A -> M B) : M B :=
  fun s => match m s with
           | (s', inr a) => k a s'
           | (s', inl e) => (s', inl e)
           end.

Definition raise {A} (e : exn) : M A := fun s => (s, inl e).

(** [try: m  except Exception as e: h e] *)
Definition try_except {A} (m : M A) (h : exn -> M A) : M A :=
  fun s => match m s with
           | (s', inl e) => if is_Exception e then h e s' else (s', inl e)
           | r => r
           end.

#[global] Instance M_ret : MRet M := @ret.
#[global] Instance M_bind : MBind M := fun A B k m => bind m k.

(** *** Primitives *)

Definition nl : string := String (Ascii.ascii_of_nat 10) EmptyString.

(** An [OSError], [ValueError] or [TypeError] raised by a library call. *)
Definition Exception (msg : string) : exn := Exn ExceptionClass msg "".

Definition SystemExit (code : Z) : exn := Exn (SystemExitClass code) (pretty code) "".

(** [sys.exit(code)] *)
Definition sys_exit {A} (code : Z) : M A := raise (SystemExit code).

(** [print(line, file=sys.stderr)] *)
Definition print_stderr (line : string) : M unit :=
  fun s => (State (files s) (stderr s ++ [line]) (sys_modules s) (trace s), inr tt).

(** [with open(path, "r", encoding="utf-8") as f: json.load(f)] *)
Definition load_json (w : world) (path : string) : M pyval :=
  fun s =>
    match input_at w path with
    | ReadRaises detail => (log (OpenRead path) s, inl (Exception detail))
    | ReadOk v => (log (OpenRead path) s, inr v)
    end.

Record module_spec := ModuleSpec { spec_name : string; spec_origin : string }.
Record module := PyModule { mod_name : string; mod_ns : gmap string attr }.

(** [importlib.util.spec_from_file_location(name, path)], answering [None]
    also when the spec has no loader. *)
Definition spec_from_file_location (w : world) (name path : string)
  : M (option module_spec) :=
  fun s =>
    match script_at w path with
    | NoSpec => (log (FindSpec name path) s, inr None)
    | _ => (log (FindSpec name path) s, inr (Some (ModuleSpec name path)))
    end.

(** [module = importlib.util.module_from_spec(spec)] and
    [spec.loader.exec_module(module)].  Neither enters the module in
    [sys.modules]. *)
Definition exec_module (w : world) (sp : module_spec) : M module :=
  fun s =>
    let s' := log (ExecModule (spec_name sp) (spec_origin sp)) s in
    match script_at w (spec_origin sp) with
    | ExecOk ns => (s', inr (PyModule (spec_name sp) ns))
    | ExecRaises e => (s', inl e)
    | NoSpec => (s', inl (Exception "no loader"))
    end.

(** [hasattr(module, name)] *)
Definition hasattr (m : module) (name : string) : bool :=
  bool_decide (is_Some (mod_ns m !! name)).

(** [callable(getattr(module, name))] *)
Definition callable (m : module) (name : string) : bool :=
  match mod_ns m !! name with
  | Some (Callable _) => true
  | _ => false
  end.

(** [getattr(module, name)(arg)] *)
Definition call (m : module) (name : string) (arg : pyval) : M pyval :=
  fun s =>
    match mod_ns m !! name with
    | Some (Callable f) =>
        match f arg with
        | inl e => (log (CallRun arg) s, inl e)
        | inr v => (log (CallRun arg) s, inr v)
        end
    | Some (NotCallable v) =>
        (s, inl (Exception ("'" +:+ type_name v +:+ "' object is not callable")))
    | None =>
        (s, inl (Exception ("module '" +:+ mod_name m +:+ "' has no attribute '" +:+ name +:+ "'")))
    end.

(** [with open(path, "w", encoding="utf-8") as f: json.dump(v, f, default=dflt)].
    Opening creates or truncates the file; the document is complete only if
    the encoder and the device both get to the end. *)
Definition write_json (w : world) (path : string)
    (dflt : option (pyobject -> string)) (v : pyval) : M unit :=
  fun s =>
    let s1 := log (OpenWrite path) s in
    match device_at w path with
    | OpenRaises detail => (s1, inl (Exception detail))
    | Writable =>
        let s2 := set_file path Truncated s1 in
        match dumps dflt v with
        | inl msg => (s2, inl (Exception msg))
        | inr j => (set_file path (Doc j) s2, inr tt)
        end
    | WriteRaises detail =>
        let s2 := set_file path Truncated s1 in
        match dumps dflt v with
        | inl msg => (s2, inl (Exception msg))
        | inr _ => (s2, inl (Exception detail))
        end
    end.

(** ** The runner *)

Definition write_error (w : world) (output_path message : string) : M unit :=
  try_except
    (write_json w output_path None (PDict [(KStr "__error", PStr message)]))
    (fun _ =>
       (* Last resort: print to stderr *)
       print_stderr message).

Definition usage : string :=
  "Usage: runner.py <script_path> <input_path> <output_path>".

Definition main (w : world) (argv : list string) : M unit :=
  if negb (length argv =? 4)%nat then
    print_stderr usage ;;
    sys_exit 1
  else
    let script_path := nth 1 argv "" in
    let input_path := nth 2 argv "" in
    let output_path := nth 3 argv "" in
    (* Load inputs *)
    inputs ←
      try_except (load_json w input_path)
        (fun e =>
           write_error w output_path ("Failed to read inputs: " +:+ exn_str e) ;;
           sys_exit 1) ;
    (* Load user script as module *)
    module ←
      try_except
        (spec ← spec_from_file_location w "user_script" script_path ;
         match spec with
         | None =>
             write_error w output_path ("Cannot load script: " +:+ script_path) ;;
             sys_exit 1
         | Some sp => exec_module w sp
         end)
        (fun e =>
           write_error w output_path
             ("Failed to load script: " +:+ exn_str e +:+ nl +:+ exn_tb e) ;;
           sys_exit 1) ;
    (* Verify run() exists *)
    if negb (hasattr module "run") || negb (callable module "run") then
      write_error w output_path "Script must define a callable `run(inputs)` function" ;;
      sys_exit 1
    else
      (* Execute *)
      result ←
        try_except (call module "run" inputs)
          (fun e =>
             write_error w output_path
               ("Script error: " +:+ exn_str e +:+ nl +:+ exn_tb e) ;;
             sys_exit 1) ;
      (* Validate output *)
      if negb (is_dict result) then
        write_error w output_path
          ("run() must return a dict, got " +:+ type_name result) ;;
        sys_exit 1
      else
        (* Write output *)
        try_except (write_json w output_path (Some str) result)
          (fun e =>
             write_error w output_path ("Failed to write output: " +:+ exn_str e) ;;
             sys_exit 1).

(** How the interpreter ends: [sys.exit(code)] (or falling off the end of
    [main], code 0), or an exception nobody caught, reported as a
    traceback. *)
Inductive status :=
| Exited (code : Z)
| Uncaught (e : exn).

(** [if __name__ == "__main__": main()] *)
Definition status_of (e : exn) : status :=
  match exn_class e with
  | SystemExitClass code => Exited code
  | _ => Uncaught e
  end.

Definition run_process (w : world) (argv : list string) (s : state) : state * status :=
  match main w argv s with
  | (s', inr _) => (s', Exited 0)
  | (s', inl e) => (s', status_of e)
  end.

(** ** One invocation *)

(** A process starts with an empty diagnostic stream and no call made;
    [fs] is the content of the files and [mods] the names in [sys.modules]
    at that moment. *)
Definition start (fs : gmap string content) (mods : gset string) : state :=
  State fs [] mods [].

Definition execute (w : world) (argv : list string)
    (fs : gmap string content) (mods : gset string) : state * status :=
  run_process w argv (start fs mods).

(** The error result [{"__error": message}]: one member, named [__error]. *)
Definition error_doc (message : string) : json := JObj [("__error", JStr message)].

(** How often a trace opens [path] for writing. *)
Definition is_open_write (path : string) (ev : event) : bool :=
  match ev with
  | OpenWrite p => bool_decide (p = path)
  | _ => false
  end.

Fixpoint opens_for_writing (path : string) (tr : list event) : nat :=
  match tr with
  | [] => 0
  | ev :: tr' =>
      (if is_open_write path ev then 1 else 0) + opens_for_writing path tr'
  end.

(** The module names a trace loads scripts under. *)
Fixpoint module_names (tr : list event) : list string :=
  match tr with
  | [] => []
  | FindSpec name _ :: tr' => name :: module_names tr'
  | ExecModule name _ :: tr' => name :: module_names tr'
  | _ :: tr' => module_names tr'
  end.

(** The module has a callable [run]. *)
Definition callable_run (ns : gmap string attr) : bool :=
  match ns !! "run" with
  | Some (Callable _) => true
  | _ => false
  end.

(** The state after each step of an invocation that gets that far. *)
Definition s_read (inp : string) (fs : gmap string content) (mods : gset string) : state :=
  log (OpenRead inp) (start fs mods).

Definition s_spec (script inp : string) (fs : gmap string content) (mods : gset string)
  : state :=
  log (FindSpec "user_script" script) (s_read inp fs mods).

Definition s_exec (script inp : string) (fs : gmap string content) (mods : gset string)
  : state :=
  log (ExecModule "user_script" script) (s_spec script inp fs mods).

Definition s_call (script inp : string) (fs : gmap string content) (mods : gset string)
    (v : pyval) : state :=
  log (CallRun v) (s_exec script inp fs mods).

(** What [write_error] leaves behind, by device. *)
Definition after_write_error (w : world) (output_path message : string) (s : state)
  : state :=
  let s1 := log (OpenWrite output_path) s in
  match device_at w output_path with
  | Writable =>
      set_file output_path (Doc (error_doc message)) (set_file output_path Truncated s1)
  | OpenRaises _ =>
      State (files s1) (stderr s1 ++ [message]) (sys_modules s1) (trace s1)
  | WriteRaises _ =>
      let s2 := set_file output_path Truncated s1 in
      State (files s2) (stderr s2 ++ [message]) (sys_modules s2) (trace s2)
  end.

(** Why writing the result [r] to [output_path] fails, if it does: [str(e)]
    of the exception that [open] or [json.dump] raises. *)
Definition write_failure (w : world) (output_path : string) (r : pyval) : option string :=
  match device_at w output_path, dumps (Some str) r with
  | OpenRaises detail, _ => Some detail
  | _, inl msg => Some msg
  | WriteRaises detail, inr _ => Some detail
  | Writable, inr _ => None
  end.

(** *** The error paths

    The stages that can fail once the arguments are accepted, in the order
    of [main]; a stage fails with an error when what it raises is an
    instance of [Exception]. *)
Inductive failure :=
| InputError (detail : string)
| CannotLoad
| LoadError (e : exn)
| NoEntryPoint
| ExecutionError (e : exn)
| ResultShape (r : pyval)
| OutputError (detail : string).

Inductive fails (w : world) (script inp out : string) : failure -> Prop :=
| fails_input detail :
    input_at w inp = ReadRaises detail ->
    fails w script inp out (InputError detail)
| fails_no_spec v :
    input_at w inp = ReadOk v ->
    script_at w script = NoSpec ->
    fails w script inp out CannotLoad
| fails_load v e :
    input_at w inp = ReadOk v ->
    script_at w script = ExecRaises e ->
    is_Exception e = true ->
    fails w script inp out (LoadError e)
| fails_entry v ns :
    input_at w inp = ReadOk v ->
    script_at w script = ExecOk ns ->
    callable_run ns = false ->
    fails w script inp out NoEntryPoint
| fails_run v ns f e :
    input_at w inp = ReadOk v ->
    script_at w script = ExecOk ns ->
    ns !! "run" = Some (Callable f) ->
    f v = inl e ->
    is_Exception e = true ->
    fails w script inp out (ExecutionError e)
| fails_shape v ns f r :
    input_at w inp = ReadOk v ->
    script_at w script = ExecOk ns ->
    ns !! "run" = Some (Callable f) ->
    f v = inr r ->
    is_dict r = false ->
    fails w script inp out (ResultShape r)
| fails_output v ns f r detail :
    input_at w inp = ReadOk v ->
    script_at w script = ExecOk ns ->
    ns !! "run" = Some (Callable f) ->
    f v = inr r ->
    is_dict r = true ->
    write_failure w out r = Some detail ->
    fails w script inp out (OutputError detail).

Definition is_output_error (f : failure) : bool :=
  match f with OutputError _ => true | _ => false end.

(** The message each error path reports. *)
Definition failure_message (script : string) (f : failure) : string :=
  match f with
  | InputError detail => "Failed to read inputs: " +:+ detail
  | CannotLoad => "Cannot load script: " +:+ script
  | LoadError e => "Failed to load script: " +:+ exn_str e +:+ nl +:+ exn_tb e
  | NoEntryPoint => "Script must define a callable `run(inputs)` function"
  | ExecutionError e => "Script error: " +:+ exn_str e +:+ nl +:+ exn_tb e
  | ResultShape r => "run() must return a dict, got " +:+ type_name r
  | OutputError detail => "Failed to write output: " +:+ detail
  end.

(** The invocation in which every stage goes through: [run] returns the
    dict [r] and the document [j] is written. *)
Inductive succeeds (w : world) (script inp out : string) (r : pyval) (j : json) : Prop :=
| succeeds_intro v ns f :
    input_at w inp = ReadOk v ->
    script_at w script = ExecOk ns ->
    ns !! "run" = Some (Callable f) ->
    f v = inr r ->
    is_dict r = true ->
    device_at w out = Writable ->
    dumps (Some str) r = inr j ->
    succeeds w script inp out r j.

(** User code raises something that is not an [Exception]: no handler of
    [main] takes it. *)
Inductive escapes (w : world) (script inp : string) (e : exn) : Prop :=
| escapes_load v :
    input_at w inp = ReadOk v ->
    script_at w script = ExecRaises e ->
    is_Exception e = false ->
    escapes w script inp e
| escapes_run v ns f :
    input_at w inp = ReadOk v ->
    script_at w script = ExecOk ns ->
    ns !! "run" = Some (Callable f) ->
    f v = inl e ->
    is_Exception e = false ->
    escapes w script inp e.

(** ** Sample invocations *)

Definition sample_inputs : pyval := PDict [(KStr "x", PInt 2)].

(** [def run(inputs): return {"y": inputs["x"] * 2}] *)
Definition run_double (inputs : pyval) : exn + pyval :=
  match inputs with
  | PDict [(KStr "x", PInt n)] => inr (PDict [(KStr "y", PInt (n * 2))])
  | _ => inl (Exn ExceptionClass "'x'" "Traceback (most recent call last): KeyError: 'x'")
  end.

(** [def run(inputs): raise ValueError("bad")] *)
Definition run_raise (_ : pyval) : exn + pyval :=
  inl (Exn ExceptionClass "bad" "Traceback (most recent call last): ValueError: bad").

(** [def run(inputs): sys.exit(0)] *)
Definition run_exit (_ : pyval) : exn + pyval := inl (SystemExit 0).

(** [def run(inputs): return 42] *)
Definition run_number (_ : pyval) : exn + pyval := inr (PInt 42).

(** [def run(inputs): return {"path": pathlib.PurePosixPath("/tmp/x")}] *)
Definition run_path (_ : pyval) : exn + pyval :=
  inr (PDict [(KStr "path", PObj (PyObject "PurePosixPath" "/tmp/x"))]).

(** [def run(inputs): return {(1, 2): 3}] *)
Definition run_tuple_key (_ : pyval) : exn + pyval :=
  inr (PDict [(KOther (PyObject "tuple" "(1, 2)"), PInt 3)]).

(** A world with the input file [in.json], the script [script.py] whose
    namespace holds [run] (if any), and one device for every path. *)
Definition sample_world (run : option attr) (dev : device) : world :=
  World
    (fun path =>
       if decide (path = "in.json") then ReadOk sample_inputs
       else ReadRaises ("[Errno 2] No such file or directory: '" +:+ path +:+ "'"))
    (fun path =>
       if decide (path = "script.py") then
         ExecOk match run with Some a => {[ "run" := a ]} | None => ∅ end
       else if decide (path = "other.py") then
         ExecOk match run with Some a => {[ "run" := a ]} | None => ∅ end
       else NoSpec)
    (fun _ => dev).

(** [def run(inputs): return {"count": len(inputs)}], for an input file
    that holds a JSON array. *)
Definition run_count (inputs : pyval) : exn + pyval :=
  match inputs with
  | PList xs => inr (PDict [(KStr "count", PInt (Z.of_nat (length xs)))])
  | _ => inl (Exn ExceptionClass "object has no len()" "Traceback (most recent call last): TypeError")
  end.

Definition array_world : world :=
  World (fun _ => ReadOk (PList [PInt 1; PInt 2; PInt 3]))
        (fun _ => ExecOk {[ "run" := Callable run_count ]})
        (fun _ => Writable).

Definition sample_argv : list string := ["runner.py"; "script.py"; "in.json"; "out.json"].

Definition other_argv : list string := ["runner.py"; "other.py"; "in.json"; "out2.json"].

Definition denied : device := OpenRaises "[Errno 13] Permission denied: 'out.json'".

(** [sys.modules] of an interpreter that has imported what [runner.py]
    imports. *)
Definition initial_modules : gset string :=
  {[ "sys"; "json"; "importlib.util"; "traceback" ]}.

Definition sample_run (run : option attr) (dev : device) (argv : list string)
  : state * status :=
  execute (sample_world run dev) argv ∅ initial_modules.

(** ** Further vocabulary *)

(** The stage of [main] an error path belongs to, counting argument
    validation as the first: input loading, script loading, entry-point
    check, execution, result check, output writing. *)
Definition stage (f : failure) : nat :=
  match f with
  | InputError _ => 2
  | CannotLoad | LoadError _ => 3
  | NoEntryPoint => 4
  | ExecutionError _ => 5
  | ResultShape _ => 6
  | OutputError _ => 7
  end.

(** The arguments [run] is called with, in order. *)
Fixpoint run_calls (tr : list event) : list pyval :=
  match tr with
  | [] => []
  | CallRun arg :: tr' => arg :: run_calls tr'
  | _ :: tr' => run_calls tr'
  end.




(** * Properties *)

(** ** [json.dump] and [json.load] *)

Example dumps_rich_object :
  dumps (Some str) (PDict [(KStr "y", PInt 4); (KInt 7, PObj (PyObject "Path" "/tmp/x"))])
  = inr (JObj [("y", JInt 4); ("7", JStr "/tmp/x")]).
Proof. vm_compute. reflexivity. Qed.

Example dumps_tuple_key :
  dumps (Some str) (PDict [(KOther (PyObject "tuple" "(1, 2)"), PInt 3)])
  = inl "keys must be str, int, float, bool or None, not tuple".
Proof. reflexivity. Qed.

Lemma dumps_list dflt xs :
  dumps dflt (PList xs)
  = match dump_items dflt xs with inl e => inl e | inr js => inr (JArr js) end.
Proof.
  cbn.
  match goal with
  | |- match ?a with _ => _ end = match ?b with _ => _ end => replace a with b; [done|]
  end.
  induction xs as [|x xs IH]; cbn; [done|]. destruct (dumps dflt x); [done|]. by rewrite IH.
Qed.


Lemma dumps_dict dflt kvs :
  dumps dflt (PDict kvs)
  = match dump_members dflt kvs with inl e => inl e | inr js => inr (JObj js) end.
Proof.
  cbn.
  match goal with
  | |- match ?a with _ => _ end = match ?b with _ => _ end => replace a with b; [done|]
  end.
  induction kvs as [|[k x] kvs IH]; cbn; [done|].
  destruct (dump_key k); [done|]. destruct (dumps dflt x); [done|]. by rewrite IH.
Qed.

Lemma loads_arr xs : loads (JArr xs) = PList (load_items xs).
Proof. reflexivity. Qed.

Lemma loads_obj kvs : loads (JObj kvs) = PDict (load_members kvs []).
Proof. reflexivity. Qed.

Lemma dumps_error_object message :
  dumps None (PDict [(KStr "__error", PStr message)]) = inr (error_doc message).
Proof. reflexivity. Qed.



Lemma coerce_id v : is_native v = true -> coerce v = v.
Proof.
  induction v as [| | | | |xs IH|xs IH|kvs IH|o] using pyval_ind; try done; cbn; intros Hn.
  - f_equal. induction IH as [|x xs Hx _ IHxs]; cbn in *; [done|].
    apply andb_true_iff in Hn as [H1 H2]. by rewrite Hx, IHxs.
  - f_equal. induction IH as [|x xs Hx _ IHxs]; cbn in *; [done|].
    apply andb_true_iff in Hn as [H1 H2]. by rewrite Hx, IHxs.
  - f_equal. induction IH as [|[k x] kvs' Hx _ IHxs]; cbn in *; [done|].
    apply andb_true_iff in Hn as [H1 H2]. by rewrite Hx, IHxs.
Qed.



Lemma dict_set_fresh k v d : k ∉ d.*1 -> dict_set k v d = d ++ [(k, v)].
Proof.
  induction d as [|[k' v'] d IH]; cbn; [done|].
  intros Hk. apply not_elem_of_cons in Hk as [Hne Hk].
  rewrite decide_False by done. by rewrite IH.
Qed.

Lemma is_json_value_dict kvs :
  is_json_value (PDict kvs) = true ->
  Forall (fun kv => is_str_key kv.1 = true /\ is_json_value kv.2 = true) kvs
  /\ NoDup (kvs.*1).
Proof.
  cbn. intros [H1 H2]%andb_true_iff. split.
  - apply Forall_forall. intros [k x] Hin. cbn.
    rewrite forallb_forall in H1. apply andb_true_iff.
    apply (H1 (k, x)). by apply list_elem_of_In.
  - by apply bool_decide_eq_true_1 in H2.
Qed.

(** A JSON value is encoded whatever [default] is, and decoding the document
    gives the value back. *)
Lemma dumps_loads dflt v :
  is_json_value v = true -> exists j, dumps dflt v = inr j /\ loads j = v.
Proof.
  induction v as [| | | | |xs IH|xs IH|kvs IH|o] using pyval_ind; intros Hv;
    try discriminate; try (eexists; split; reflexivity).
  - rewrite dumps_list. cbn in Hv.
    assert (exists js, dump_items dflt xs = inr js /\ load_items js = xs) as (js & -> & Hjs).
    { induction IH as [|x xs Hx _ IHxs]; cbn in *; [by eexists|].
      apply andb_true_iff in Hv as [Hv1 Hv2].
      destruct (Hx Hv1) as (j & -> & Hj). destruct (IHxs Hv2) as (js & -> & Hjs).
      eexists; split; [done|]. cbn. by rewrite Hj, Hjs. }
    eexists; split; [done|]. by rewrite loads_arr, Hjs.
  - rewrite dumps_dict. apply is_json_value_dict in Hv as [Hall Hnd].
    assert (forall d, NoDup (d.*1 ++ kvs.*1) ->
              exists js, dump_members dflt kvs = inr js /\ load_members js d = d ++ kvs)
      as Hgen.
    { clear Hnd. induction IH as [|[k x] kvs' Hx _ IHxs]; intros d Hnd; cbn in *.
      - eexists; split; [done|]. by rewrite app_nil_r.
      - apply Forall_cons in Hall as [[Hk Hvx] Hall]. cbn in Hk, Hvx.
        destruct k as [s| | | | |]; try discriminate. cbn.
        destruct (Hx Hvx) as (j & -> & Hj).
        destruct (IHxs Hall (d ++ [(KStr s, x)])) as (js & -> & Hjs).
        { rewrite fmap_app. cbn. rewrite <- app_assoc. done. }
        eexists; split; [done|]. cbn. rewrite Hj.
        rewrite dict_set_fresh.
        + rewrite Hjs, <- app_assoc. done.
        + apply NoDup_app in Hnd as (_ & Hnd & _). intros Hin.
          apply (Hnd _ Hin). left. }
    destruct (Hgen []) as (js & -> & Hjs); [done|].
    eexists; split; [done|]. by rewrite loads_obj, Hjs.
Qed.

(** ** [write_error] *)

Lemma write_error_eq w output_path message s :
  write_error w output_path message s
  = (after_write_error w output_path message s, inr tt).
Proof.
  unfold write_error, try_except, write_json, after_write_error.
  destruct (device_at w output_path); reflexivity.
Qed.

Lemma after_write_error_trace w out message s :
  trace (after_write_error w out message s) = trace s ++ [OpenWrite out].
Proof. unfold after_write_error. destruct (device_at w out); reflexivity. Qed.

Lemma after_write_error_modules w out message s :
  sys_modules (after_write_error w out message s) = sys_modules s.
Proof. unfold after_write_error. destruct (device_at w out); reflexivity. Qed.

Lemma after_write_error_file w out message s :
  device_at w out = Writable ->
  files (after_write_error w out message s) !! out = Some (Doc (error_doc message)).
Proof.
  intros Hdev. unfold after_write_error. rewrite Hdev. cbn. apply lookup_insert_eq.
Qed.

Lemma after_write_error_stderr w out message s :
  device_at w out <> Writable ->
  stderr (after_write_error w out message s) = stderr s ++ [message].
Proof. unfold after_write_error. destruct (device_at w out); done. Qed.

Lemma after_write_error_quiet w out message s :
  device_at w out = Writable ->
  stderr (after_write_error w out message s) = stderr s.
Proof. intros Hdev. unfold after_write_error. by rewrite Hdev. Qed.

Lemma opens_for_writing_app path tr1 tr2 :
  opens_for_writing path (tr1 ++ tr2)
  = opens_for_writing path tr1 + opens_for_writing path tr2.
Proof. induction tr1 as [|ev tr1 IH]; cbn; [done|]. rewrite IH. lia. Qed.


Lemma module_names_app tr1 tr2 :
  module_names (tr1 ++ tr2) = module_names tr1 ++ module_names tr2.
Proof. induction tr1 as [|[] tr1 IH]; cbn; by rewrite ?IH. Qed.

(** ** The paths of [main]

    One equation per way through [main] once the arguments are accepted:
    the final state and the status of the process. *)

Ltac run_main :=
  unfold execute, run_process, main;
  cbn [length Nat.eqb negb nth];
  unfold mbind, M_bind, bind, try_except, load_json, spec_from_file_location,
    exec_module.

Lemma path_usage w argv fs mods :
  length argv <> 4 ->
  execute w argv fs mods = (State fs [usage] mods [], Exited 1).
Proof.
  intros Hlen. unfold execute, run_process, main.
  destruct (Nat.eqb_spec (length argv) 4) as [|_]; [done|]. reflexivity.
Qed.

Lemma path_input_error w prog script inp out fs mods detail :
  input_at w inp = ReadRaises detail ->
  execute w [prog; script; inp; out] fs mods
  = (after_write_error w out ("Failed to read inputs: " +:+ detail) (s_read inp fs mods),
     Exited 1).
Proof.
  intros Hin. run_main. rewrite Hin. cbn. rewrite write_error_eq. reflexivity.
Qed.

Lemma path_no_spec w prog script inp out fs mods v :
  input_at w inp = ReadOk v ->
  script_at w script = NoSpec ->
  execute w [prog; script; inp; out] fs mods
  = (after_write_error w out ("Cannot load script: " +:+ script) (s_spec script inp fs mods),
     Exited 1).
Proof.
  intros Hin Hsc. run_main. rewrite Hin, Hsc. cbn. rewrite write_error_eq. reflexivity.
Qed.

Lemma path_load_raises w prog script inp out fs mods v e :
  input_at w inp = ReadOk v ->
  script_at w script = ExecRaises e ->
  execute w [prog; script; inp; out] fs mods
  = if is_Exception e
    then (after_write_error w out
            ("Failed to load script: " +:+ exn_str e +:+ nl +:+ exn_tb e)
            (s_exec script inp fs mods),
          Exited 1)
    else (s_exec script inp fs mods, status_of e).
Proof.
  intros Hin Hsc. run_main. rewrite Hin, Hsc. cbn. rewrite Hsc.
  destruct e as [[]]; cbn; try rewrite write_error_eq; reflexivity.
Qed.

Lemma path_no_run w prog script inp out fs mods v ns :
  input_at w inp = ReadOk v ->
  script_at w script = ExecOk ns ->
  callable_run ns = false ->
  execute w [prog; script; inp; out] fs mods
  = (after_write_error w out "Script must define a callable `run(inputs)` function"
       (s_exec script inp fs mods),
     Exited 1).
Proof.
  intros Hin Hsc Hrun. run_main. rewrite Hin, Hsc. cbn. rewrite Hsc.
  unfold hasattr, callable, callable_run in *. cbn.
  destruct (ns !! "run") as [[]|] eqn:E; try discriminate; cbn.
  all: rewrite write_error_eq; reflexivity.
Qed.

Lemma path_run_raises w prog script inp out fs mods v ns f e :
  input_at w inp = ReadOk v ->
  script_at w script = ExecOk ns ->
  ns !! "run" = Some (Callable f) ->
  f v = inl e ->
  execute w [prog; script; inp; out] fs mods
  = if is_Exception e
    then (after_write_error w out
            ("Script error: " +:+ exn_str e +:+ nl +:+ exn_tb e)
            (s_call script inp fs mods v),
          Exited 1)
    else (s_call script inp fs mods v, status_of e).
Proof.
  intros Hin Hsc Hrun Hf. run_main. rewrite Hin, Hsc. cbn. rewrite Hsc.
  unfold hasattr, callable, call. cbn. rewrite Hrun. cbn. rewrite Hf.
  destruct e as [[]]; cbn; try rewrite write_error_eq; reflexivity.
Qed.

Lemma path_not_dict w prog script inp out fs mods v ns f r :
  input_at w inp = ReadOk v ->
  script_at w script = ExecOk ns ->
  ns !! "run" = Some (Callable f) ->
  f v = inr r ->
  is_dict r = false ->
  execute w [prog; script; inp; out] fs mods
  = (after_write_error w out ("run() must return a dict, got " +:+ type_name r)
       (s_call script inp fs mods v),
     Exited 1).
Proof.
  intros Hin Hsc Hrun Hf Hd. run_main. rewrite Hin, Hsc. cbn. rewrite Hsc.
  unfold hasattr, callable, call. cbn. rewrite Hrun. cbn. rewrite Hf, Hd. cbn.
  rewrite write_error_eq. reflexivity.
Qed.

Lemma path_write w prog script inp out fs mods v ns f r :
  input_at w inp = ReadOk v ->
  script_at w script = ExecOk ns ->
  ns !! "run" = Some (Callable f) ->
  f v = inr r ->
  is_dict r = true ->
  execute w [prog; script; inp; out] fs mods
  = match write_json w out (Some str) r (s_call script inp fs mods v) with
    | (s', inr _) => (s', Exited 0)
    | (s', inl e) =>
        (after_write_error w out ("Failed to write output: " +:+ exn_str e) s', Exited 1)
    end.
Proof.
  intros Hin Hsc Hrun Hf Hd. run_main. rewrite Hin, Hsc. cbn. rewrite Hsc.
  unfold hasattr, callable, call. cbn. rewrite Hrun. cbn. rewrite Hf, Hd. cbn.
  unfold write_json.
  destruct (device_at w out); [destruct (dumps _ _)|..]; cbn;
    try rewrite write_error_eq; try reflexivity.
  destruct (dumps _ _); cbn; rewrite write_error_eq; reflexivity.
Qed.

(** The result is written. *)
Lemma path_success w prog script inp out fs mods v ns f r j :
  input_at w inp = ReadOk v ->
  script_at w script = ExecOk ns ->
  ns !! "run" = Some (Callable f) ->
  f v = inr r ->
  is_dict r = true ->
  device_at w out = Writable ->
  dumps (Some str) r = inr j ->
  execute w [prog; script; inp; out] fs mods
  = (set_file out (Doc j)
       (set_file out Truncated (log (OpenWrite out) (s_call script inp fs mods v))),
     Exited 0).
Proof.
  intros Hin Hsc Hrun Hf Hd Hdev Hj.
  rewrite (path_write _ _ _ _ _ _ _ _ _ _ _ Hin Hsc Hrun Hf Hd).
  unfold write_json. rewrite Hdev, Hj. reflexivity.
Qed.

(** Writing the result fails: [write_error] opens the path again. *)
Lemma path_write_fails w prog script inp out fs mods v ns f r detail :
  input_at w inp = ReadOk v ->
  script_at w script = ExecOk ns ->
  ns !! "run" = Some (Callable f) ->
  f v = inr r ->
  is_dict r = true ->
  write_failure w out r = Some detail ->
  exists s',
    execute w [prog; script; inp; out] fs mods
    = (after_write_error w out ("Failed to write output: " +:+ detail) s', Exited 1)
    /\ trace s' = trace (s_call script inp fs mods v) ++ [OpenWrite out]
    /\ stderr s' = []
    /\ sys_modules s' = mods.
Proof.
  intros Hin Hsc Hrun Hf Hd Hw.
  rewrite (path_write _ _ _ _ _ _ _ _ _ _ _ Hin Hsc Hrun Hf Hd).
  unfold write_failure in Hw. unfold write_json.
  destruct (device_at w out) eqn:Hdev.
  - destruct (dumps (Some str) r); [|discriminate].
    injection Hw as <-. eexists; split; [reflexivity|done].
  - injection Hw as <-. eexists; split; [reflexivity|done].
  - destruct (dumps (Some str) r); injection Hw as <-;
      (eexists; split; [reflexivity|done]).
Qed.

(** ** Every invocation is of one of three kinds *)

Lemma invocation_cases w script inp out :
  (exists r j, succeeds w script inp out r j)
  \/ (exists f, fails w script inp out f)
  \/ (exists e, escapes w script inp e).
Proof.
  destruct (input_at w inp) as [detail|v] eqn:Hin.
  { right; left. eexists. by eapply fails_input. }
  destruct (script_at w script) as [|e|ns] eqn:Hsc.
  { right; left. eexists. by eapply fails_no_spec. }
  { destruct (is_Exception e) eqn:He.
    - right; left. eexists. by eapply fails_load.
    - right; right. eexists. by eapply escapes_load. }
  destruct (ns !! "run") as [[f|x]|] eqn:Hrun.
  2,3: right; left; eexists; eapply fails_entry; eauto; unfold callable_run; by rewrite Hrun.
  destruct (f v) as [e|r] eqn:Hf.
  { destruct (is_Exception e) eqn:He.
    - right; left. eexists. by eapply fails_run.
    - right; right. eexists. by eapply escapes_run. }
  destruct (is_dict r) eqn:Hd.
  2: { right; left. eexists. by eapply fails_shape. }
  destruct (write_failure w out r) as [detail|] eqn:Hw.
  { right; left. eexists. by eapply fails_output. }
  left. unfold write_failure in Hw.
  destruct (device_at w out) eqn:Hdev; try discriminate;
    destruct (dumps (Some str) r) as [|j] eqn:Hj; try discriminate.
  exists r, j. by econstructor.
Qed.

Lemma execute_succeeds w prog script inp out fs mods r j :
  succeeds w script inp out r j ->
  exists s,
    execute w [prog; script; inp; out] fs mods = (s, Exited 0)
    /\ files s !! out = Some (Doc j)
    /\ opens_for_writing out (trace s) = 1
    /\ Forall (fun name => name = "user_script") (module_names (trace s))
    /\ FindSpec "user_script" script ∈ trace s
    /\ stderr s = [] /\ sys_modules s = mods.
Proof.
  intros [v ns f Hin Hsc Hrun Hf Hd Hdev Hj].
  eexists; split; [by eapply path_success|].
  cbn. rewrite lookup_insert_eq, bool_decide_eq_true_2 by done.
  repeat split; repeat constructor.
Qed.

Lemma execute_fails w prog script inp out fs mods f :
  fails w script inp out f ->
  exists s,
    execute w [prog; script; inp; out] fs mods
    = (after_write_error w out (failure_message script f) s, Exited 1)
    /\ opens_for_writing out (trace s) = (if is_output_error f then 1 else 0)
    /\ Forall (fun name => name = "user_script") (module_names (trace s))
    /\ (forall v, input_at w inp = ReadOk v -> FindSpec "user_script" script ∈ trace s)
    /\ stderr s = [] /\ sys_modules s = mods.
Proof.
  destruct 1 as [detail Hin|v Hin Hsc|v e Hin Hsc He|v ns Hin Hsc Hrun
                 |v ns f e Hin Hsc Hrun Hf He|v ns f r Hin Hsc Hrun Hf Hd
                 |v ns f r detail Hin Hsc Hrun Hf Hd Hw].
  - eexists; split; [by eapply path_input_error|]. cbn.
    repeat split; try (intros; congruence); repeat constructor.
  - eexists; split; [by eapply path_no_spec|]. cbn.
    repeat split; try intros _; repeat constructor.
  - eexists; split; [erewrite path_load_raises by done; by rewrite He|].
    cbn. repeat split; try intros _; repeat constructor.
  - eexists; split; [by eapply path_no_run|]. cbn.
    repeat split; try intros _; repeat constructor.
  - eexists; split; [erewrite path_run_raises by done; by rewrite He|].
    cbn. repeat split; try intros _; repeat constructor.
  - eexists; split; [by eapply path_not_dict|]. cbn.
    repeat split; try intros _; repeat constructor.
  - destruct (path_write_fails w prog script inp out fs mods v ns f r detail)
      as (s' & Heq & Htr & Herr & Hmods); try done.
    exists s'. split; [done|]. rewrite Htr, opens_for_writing_app, module_names_app.
    cbn. rewrite bool_decide_eq_true_2 by done.
    repeat split; try done; try intros _; repeat constructor.
Qed.

Lemma execute_escapes w prog script inp out fs mods e :
  escapes w script inp e ->
  exists s,
    execute w [prog; script; inp; out] fs mods = (s, status_of e)
    /\ files s = fs
    /\ opens_for_writing out (trace s) = 0
    /\ Forall (fun name => name = "user_script") (module_names (trace s))
    /\ FindSpec "user_script" script ∈ trace s
    /\ stderr s = [] /\ sys_modules s = mods.
Proof.
  destruct 1 as [v Hin Hsc He|v ns f Hin Hsc Hrun Hf He].
  - eexists; split; [erewrite path_load_raises by done; by rewrite He|].
    cbn. repeat split; repeat constructor.
  - eexists; split; [erewrite path_run_raises by done; by rewrite He|].
    cbn. repeat split; repeat constructor.
Qed.

Lemma argv_of_length_4 (argv : list string) :
  length argv = 4 -> exists prog script inp out, argv = [prog; script; inp; out].
Proof.
  destruct argv as [|prog [|script [|inp [|out [|]]]]]; try discriminate. by eexists _, _, _, _.
Qed.

(** * The contract, claim by claim *)

(** ** Usage errors *)

(** C4.  When [sys.argv] does not hold the program name and exactly three
    arguments, the runner prints the usage line to the diagnostic stream,
    exits with code 1 and touches no file: the files are what they were and
    no path was opened. *)
Theorem usage_error_leaves_files_alone w argv fs mods :
  length argv <> 4 ->
  let r := execute w argv fs mods in
  r.2 = Exited 1
  /\ stderr r.1 = [usage]
  /\ files r.1 = fs
  /\ trace r.1 = [].
Proof. intros Hlen. cbn zeta. by rewrite path_usage. Qed.

Lemma usage_error_leaves_files_alone_witness :
  length ["runner.py"; "script.py"; "in.json"] <> 4
  /\ let r := execute (sample_world None Writable) ["runner.py"; "script.py"; "in.json"]
                ∅ initial_modules in
     r.2 = Exited 1
     /\ stderr r.1 = [usage]
     /\ files r.1 = ∅
     /\ trace r.1 = [].
Proof.
  split; [cbn; lia|].
  apply (usage_error_leaves_files_alone (sample_world None Writable)
           ["runner.py"; "script.py"; "in.json"] ∅ initial_modules).
  cbn; lia.
Defined.

(** ** Input errors *)

(** C5 (amended).  When opening or parsing the input file fails, the runner
    exits with code 1 after two calls only, the read that failed and one
    open of the output path: the script is neither loaded nor run.  When
    the output path can be written it then holds
    [{"__error": "Failed to read inputs: <detail>"}]; when it cannot, the
    message goes to the diagnostic stream instead. *)
Theorem input_failure_reported w prog script inp out fs mods detail :
  input_at w inp = ReadRaises detail ->
  let r := execute w [prog; script; inp; out] fs mods in
  let message := "Failed to read inputs: " +:+ detail in
  r.2 = Exited 1
  /\ trace r.1 = [OpenRead inp; OpenWrite out]
  /\ (device_at w out = Writable -> files r.1 !! out = Some (Doc (error_doc message)))
  /\ (device_at w out <> Writable -> stderr r.1 = [message]).
Proof.
  intros Hin. cbn zeta. erewrite path_input_error by done. cbn [fst snd].
  repeat split.
  - by rewrite after_write_error_trace.
  - intros Hdev. by apply after_write_error_file.
  - intros Hdev. by rewrite after_write_error_stderr.
Qed.

Lemma input_failure_reported_witness :
  input_at (sample_world None Writable) "missing.json"
  = ReadRaises "[Errno 2] No such file or directory: 'missing.json'"
  /\ let r := execute (sample_world None Writable)
                ["runner.py"; "script.py"; "missing.json"; "out.json"] ∅ initial_modules in
     let message :=
       "Failed to read inputs: " +:+ "[Errno 2] No such file or directory: 'missing.json'" in
     r.2 = Exited 1
     /\ trace r.1 = [OpenRead "missing.json"; OpenWrite "out.json"]
     /\ (device_at (sample_world None Writable) "out.json" = Writable ->
         files r.1 !! "out.json" = Some (Doc (error_doc message)))
     /\ (device_at (sample_world None Writable) "out.json" <> Writable ->
         stderr r.1 = [message]).
Proof.
  split; [reflexivity|].
  apply (input_failure_reported (sample_world None Writable)
           "runner.py" "script.py" "missing.json" "out.json" ∅ initial_modules).
  reflexivity.
Defined.

(** C5 as stated fails where the output path cannot be opened: the input
    is missing, yet nothing is written to the output path; the message is
    on the diagnostic stream. *)
Lemma input_failure_not_written_when_denied :
  input_at (sample_world None denied) "missing.json"
  = ReadRaises "[Errno 2] No such file or directory: 'missing.json'"
  /\ (sample_run None denied ["runner.py"; "script.py"; "missing.json"; "out.json"]).2
     = Exited 1
  /\ files (sample_run None denied
              ["runner.py"; "script.py"; "missing.json"; "out.json"]).1 !! "out.json"
     = None
  /\ stderr (sample_run None denied
               ["runner.py"; "script.py"; "missing.json"; "out.json"]).1
     = ["Failed to read inputs: [Errno 2] No such file or directory: 'missing.json'"].
Proof. repeat split; vm_compute; reflexivity. Qed.

(** ** The entry point *)

(** C2 (amended).  When the loaded module has no attribute [run], or has one
    that is not callable, the runner exits with code 1 and, the output path
    being writable, leaves there the object whose only member is [__error]
    with the message
    ["Script must define a callable `run(inputs)` function"], backquotes
    included; on a path that cannot be written the message goes to the
    diagnostic stream. *)
Theorem missing_run_reported w prog script inp out fs mods v ns :
  input_at w inp = ReadOk v ->
  script_at w script = ExecOk ns ->
  ns !! "run" = None \/ (exists x, ns !! "run" = Some (NotCallable x)) ->
  let r := execute w [prog; script; inp; out] fs mods in
  let message := "Script must define a callable `run(inputs)` function" in
  r.2 = Exited 1
  /\ (device_at w out = Writable ->
      files r.1 !! out = Some (Doc (JObj [("__error", JStr message)])))
  /\ (device_at w out <> Writable -> stderr r.1 = [message]).
Proof.
  intros Hin Hsc Hrun. cbn zeta.
  erewrite path_no_run; [|done|done|].
  - cbn [fst snd]. repeat split.
    + intros Hdev. by apply after_write_error_file.
    + intros Hdev. by rewrite after_write_error_stderr.
  - unfold callable_run. by destruct Hrun as [->|[x ->]].
Qed.

Lemma missing_run_reported_witness :
  input_at (sample_world None Writable) "in.json" = ReadOk sample_inputs
  /\ script_at (sample_world None Writable) "script.py" = ExecOk ∅
  /\ ((∅ : gmap string attr) !! "run" = None
      \/ (exists x, (∅ : gmap string attr) !! "run" = Some (NotCallable x)))
  /\ let r := execute (sample_world None Writable)
                ["runner.py"; "script.py"; "in.json"; "out.json"] ∅ initial_modules in
     let message := "Script must define a callable `run(inputs)` function" in
     r.2 = Exited 1
     /\ (device_at (sample_world None Writable) "out.json" = Writable ->
         files r.1 !! "out.json" = Some (Doc (JObj [("__error", JStr message)])))
     /\ (device_at (sample_world None Writable) "out.json" <> Writable ->
         stderr r.1 = [message]).
Proof.
  split; [reflexivity|]. split; [reflexivity|]. split; [left; reflexivity|].
  apply (missing_run_reported (sample_world None Writable)
           "runner.py" "script.py" "in.json" "out.json" ∅ initial_modules
           sample_inputs ∅).
  - reflexivity.
  - reflexivity.
  - left; reflexivity.
Defined.

(** C2 as stated fails twice.  For a script without [run] and a writable
    output path, the file does not hold the message of the claim (it holds
    the one with backquotes); and for the same script and an output path
    that cannot be opened, the file holds nothing. *)
Lemma missing_run_message_differs :
  script_at (sample_world None Writable) "script.py" = ExecOk ∅
  /\ files (sample_run None Writable sample_argv).1 !! "out.json"
     <> Some (Doc (JObj [("__error",
                          JStr "Script must define a callable run(inputs) function")]))
  /\ files (sample_run None Writable sample_argv).1 !! "out.json"
     = Some (Doc (JObj [("__error",
                         JStr "Script must define a callable `run(inputs)` function")]))
  /\ files (sample_run None denied sample_argv).1 !! "out.json" = None.
Proof.
  split; [reflexivity|].
  assert (files (sample_run None Writable sample_argv).1 !! "out.json"
          = Some (Doc (JObj [("__error",
                    JStr "Script must define a callable `run(inputs)` function")]))) as H.
  { vm_compute. reflexivity. }
  split; [rewrite H; discriminate|]. split; [exact H|].
  vm_compute. reflexivity.
Qed.

(** ** Execution *)



(** The second example of the contract: [run] raising [ValueError("bad")]
    gives [{"__error": "Script error: bad\n<trace>"}] and exit code 1. *)
Example raising_example :
  (sample_run (Some (Callable run_raise)) Writable sample_argv).2 = Exited 1
  /\ files (sample_run (Some (Callable run_raise)) Writable sample_argv).1 !! "out.json"
     = Some (Doc (JObj [("__error",
         JStr ("Script error: bad" +:+ nl
               +:+ "Traceback (most recent call last): ValueError: bad"))])).
Proof. split; vm_compute; reflexivity. Qed.


(** ** The type of the result *)

(** C7 (amended).  When [run] returns a value that is not a dict, the runner
    exits with code 1 and, the output path being writable, leaves there
    [{"__error": m}] where [m] is exactly
    ["run() must return a dict, got "] followed by the name of the value's
    type; on a path that cannot be written [m] goes to the diagnostic
    stream. *)
Theorem non_dict_result_reported w prog script inp out fs mods v ns f result :
  input_at w inp = ReadOk v ->
  script_at w script = ExecOk ns ->
  ns !! "run" = Some (Callable f) ->
  f v = inr result ->
  is_dict result = false ->
  let r := execute w [prog; script; inp; out] fs mods in
  let message := "run() must return a dict, got " +:+ type_name result in
  r.2 = Exited 1
  /\ (device_at w out = Writable -> files r.1 !! out = Some (Doc (error_doc message)))
  /\ (device_at w out <> Writable -> stderr r.1 = [message]).
Proof.
  intros Hin Hsc Hrun Hf Hd. cbn zeta. erewrite path_not_dict by done.
  cbn [fst snd]. repeat split.
  - intros Hdev. by apply after_write_error_file.
  - intros Hdev. by rewrite after_write_error_stderr.
Qed.

Lemma non_dict_result_reported_witness :
  input_at (sample_world (Some (Callable run_number)) Writable) "in.json"
  = ReadOk sample_inputs
  /\ script_at (sample_world (Some (Callable run_number)) Writable) "script.py"
     = ExecOk {[ "run" := Callable run_number ]}
  /\ ({[ "run" := Callable run_number ]} : gmap string attr) !! "run"
     = Some (Callable run_number)
  /\ run_number sample_inputs = inr (PInt 42)
  /\ is_dict (PInt 42) = false
  /\ let r := execute (sample_world (Some (Callable run_number)) Writable)
                ["runner.py"; "script.py"; "in.json"; "out.json"] ∅ initial_modules in
     let message := "run() must return a dict, got " +:+ type_name (PInt 42) in
     r.2 = Exited 1
     /\ (device_at (sample_world (Some (Callable run_number)) Writable) "out.json"
         = Writable ->
         files r.1 !! "out.json" = Some (Doc (error_doc message)))
     /\ (device_at (sample_world (Some (Callable run_number)) Writable) "out.json"
         <> Writable ->
         stderr r.1 = [message]).
Proof.
  split; [reflexivity|]. split; [reflexivity|]. split; [reflexivity|].
  split; [reflexivity|]. split; [reflexivity|].
  apply (non_dict_result_reported (sample_world (Some (Callable run_number)) Writable)
           "runner.py" "script.py" "in.json" "out.json" ∅ initial_modules
           sample_inputs {[ "run" := Callable run_number ]} run_number (PInt 42));
    reflexivity.
Defined.

(** C7 as stated fails where the output path cannot be opened: [run]
    returns 42, and the output path holds nothing; the message is on the
    diagnostic stream. *)
Lemma non_dict_result_not_written_when_denied :
  run_number sample_inputs = inr (PInt 42)
  /\ (sample_run (Some (Callable run_number)) denied sample_argv).2 = Exited 1
  /\ files (sample_run (Some (Callable run_number)) denied sample_argv).1 !! "out.json"
     = None
  /\ stderr (sample_run (Some (Callable run_number)) denied sample_argv).1
     = ["run() must return a dict, got int"].
Proof. repeat split; vm_compute; reflexivity. Qed.

(** ** The result *)

(** C1 (amended).  With three arguments, an input file that is read and
    decoded to a value [v] of any shape, a script that loads and defines a
    callable [run], [run(v)] returning a JSON-object value [V], and an output
    path that can be written: the runner exits with code 0 and the output
    path holds the JSON document of [V], which decodes to [V] again. *)
Theorem json_result_written w prog script inp out fs mods v ns f V :
  input_at w inp = ReadOk v ->
  script_at w script = ExecOk ns ->
  ns !! "run" = Some (Callable f) ->
  f v = inr V ->
  is_dict V = true ->
  is_json_value V = true ->
  device_at w out = Writable ->
  exists j,
    dumps (Some str) V = inr j
    /\ loads j = V
    /\ let r := execute w [prog; script; inp; out] fs mods in
       r.2 = Exited 0 /\ files r.1 !! out = Some (Doc j) /\ stderr r.1 = [].
Proof.
  intros Hin Hsc Hrun Hf Hd HV Hdev.
  destruct (dumps_loads (Some str) V HV) as (j & Hj & Hload).
  exists j. split; [done|]. split; [done|]. cbn zeta.
  erewrite path_success by done. cbn [fst snd].
  repeat split. cbn. apply lookup_insert_eq.
Qed.

Lemma json_result_written_witness :
  input_at array_world "in.json" = ReadOk (PList [PInt 1; PInt 2; PInt 3])
  /\ script_at array_world "script.py" = ExecOk {[ "run" := Callable run_count ]}
  /\ ({[ "run" := Callable run_count ]} : gmap string attr) !! "run"
     = Some (Callable run_count)
  /\ run_count (PList [PInt 1; PInt 2; PInt 3]) = inr (PDict [(KStr "count", PInt 3)])
  /\ is_dict (PDict [(KStr "count", PInt 3)]) = true
  /\ is_json_value (PDict [(KStr "count", PInt 3)]) = true
  /\ device_at array_world "out.json" = Writable
  /\ exists j,
       dumps (Some str) (PDict [(KStr "count", PInt 3)]) = inr j
       /\ loads j = PDict [(KStr "count", PInt 3)]
       /\ let r := execute array_world ["runner.py"; "script.py"; "in.json"; "out.json"]
                     ∅ initial_modules in
          r.2 = Exited 0 /\ files r.1 !! "out.json" = Some (Doc j) /\ stderr r.1 = [].
Proof.
  split; [reflexivity|]. split; [reflexivity|]. split; [reflexivity|].
  split; [reflexivity|]. split; [reflexivity|]. split; [vm_compute; reflexivity|].
  split; [reflexivity|].
  apply (json_result_written array_world
           "runner.py" "script.py" "in.json" "out.json" ∅ initial_modules
           (PList [PInt 1; PInt 2; PInt 3]) {[ "run" := Callable run_count ]} run_count
           (PDict [(KStr "count", PInt 3)])); reflexivity.
Defined.

(** C1 as stated fails where the output path cannot be opened: the input is
    valid JSON, the script loads, [run] returns the JSON object [{"y": 4}],
    and the process exits with code 1 with nothing written. *)
Lemma json_result_not_written_when_denied :
  input_at (sample_world (Some (Callable run_double)) denied) "in.json"
  = ReadOk sample_inputs
  /\ run_double sample_inputs = inr (PDict [(KStr "y", PInt 4)])
  /\ is_json_value (PDict [(KStr "y", PInt 4)]) = true
  /\ (sample_run (Some (Callable run_double)) denied sample_argv).2 = Exited 1
  /\ files (sample_run (Some (Callable run_double)) denied sample_argv).1 !! "out.json"
     = None.
Proof. repeat split; vm_compute; reflexivity. Qed.

(** The example of the contract: input [{"x": 2}], [run] returning
    [{"y": inputs["x"] * 2}], output [{"y": 4}], exit code 0. *)
Example doubling_example :
  sample_run (Some (Callable run_double)) Writable sample_argv
  = (State {[ "out.json" := Doc (JObj [("y", JInt 4)]) ]} [] initial_modules
       [OpenRead "in.json"; FindSpec "user_script" "script.py";
        ExecModule "user_script" "script.py"; CallRun sample_inputs;
        OpenWrite "out.json"],
     Exited 0).
Proof.
  unfold sample_run, sample_argv. erewrite path_success; reflexivity.
Qed.



Example path_object_written :
  files (sample_run (Some (Callable run_path)) Writable sample_argv).1 !! "out.json"
  = Some (Doc (JObj [("path", JStr "/tmp/x")])).
Proof. vm_compute. reflexivity. Qed.

(** ** Opening the output path *)




(** ** The module name *)

(** C9 (amended).  In every invocation the script is loaded under the one
    module name ["user_script"], the same for every script and every
    invocation: each lookup and each execution of a module in the trace
    bears that name, an invocation that has read its input looks the script
    path up under it, and the module is not entered in [sys.modules], which
    the runner leaves as it found it. *)
Theorem script_loaded_as_user_script w argv fs mods :
  let r := execute w argv fs mods in
  Forall (fun name => name = "user_script") (module_names (trace r.1))
  /\ sys_modules r.1 = mods
  /\ (forall prog script inp out v,
        argv = [prog; script; inp; out] ->
        input_at w inp = ReadOk v ->
        FindSpec "user_script" script ∈ trace r.1).
Proof.
  cbn zeta. destruct (decide (length argv = 4)) as [Hlen|Hlen].
  - destruct (argv_of_length_4 argv Hlen) as (prog & script & inp & out & ->).
    destruct (invocation_cases w script inp out) as [(r & j & Hs)|[(f & Hf)|(e & He)]].
    + destruct (execute_succeeds w prog script inp out fs mods r j Hs)
        as (s & -> & _ & _ & Hnames & Hfind & _ & Hmods).
      repeat split; try done. intros ? ? ? ? ? [= <- <- <- <-] _. done.
    + destruct (execute_fails w prog script inp out fs mods f Hf)
        as (s & -> & _ & Hnames & Hfind & _ & Hmods).
      cbn [fst]. rewrite after_write_error_trace, after_write_error_modules,
        module_names_app.
      repeat split; try done.
      * apply Forall_app. split; [done|constructor].
      * intros ? ? ? ? v [= <- <- <- <-] Hv. apply elem_of_app. left. by eapply Hfind.
    + destruct (execute_escapes w prog script inp out fs mods e He)
        as (s & -> & _ & _ & Hnames & Hfind & _ & Hmods).
      repeat split; try done. intros ? ? ? ? ? [= <- <- <- <-] _. done.
  - rewrite path_usage by done. cbn. repeat split; [constructor|].
    intros ? ? ? ? ? -> _. done.
Qed.

Lemma script_loaded_as_user_script_witness :
  FindSpec "user_script" "script.py"
  ∈ trace (execute (sample_world (Some (Callable run_double)) Writable)
             ["runner.py"; "script.py"; "in.json"; "out.json"] ∅ initial_modules).1.
Proof.
  destruct (script_loaded_as_user_script (sample_world (Some (Callable run_double)) Writable)
              ["runner.py"; "script.py"; "in.json"; "out.json"] ∅ initial_modules)
    as (_ & _ & H).
  apply (H "runner.py" "script.py" "in.json" "out.json" sample_inputs); reflexivity.
Defined.

(** C9 as stated fails: the name is not distinct per invocation.  Two
    invocations that differ in script and output path load their scripts
    under the same name. *)
Lemma module_name_shared :
  sample_argv <> other_argv
  /\ module_names (trace (sample_run (Some (Callable run_double)) Writable sample_argv).1)
     = ["user_script"; "user_script"]
  /\ module_names (trace (sample_run (Some (Callable run_double)) Writable other_argv).1)
     = ["user_script"; "user_script"].
Proof. split; [discriminate|]. split; vm_compute; reflexivity. Qed.

(** ** Error paths end with exit code 1 *)



Example unwritable_output_goes_to_stderr :
  sample_run (Some (Callable run_number)) denied sample_argv
  = (State ∅ ["run() must return a dict, got int"] initial_modules
       [OpenRead "in.json"; FindSpec "user_script" "script.py";
        ExecModule "user_script" "script.py"; CallRun sample_inputs;
        OpenWrite "out.json"],
     Exited 1).
Proof. vm_compute. reflexivity. Qed.

(** * Further properties of the runner *)

(** Case analysis on the way through [main]. *)
Ltac no_run_path w prog script inp out fs mods v ns Hin Hsc Hrun :=
  let Hcr := fresh "Hcr" in
  assert (callable_run ns = false) as Hcr
    by (unfold callable_run; rewrite Hrun; reflexivity);
  rewrite (path_no_run w prog script inp out fs mods v ns Hin Hsc Hcr).

Ltac by_paths w prog script inp out fs mods :=
  let Hdev := fresh "Hdev" in
  let Hin := fresh "Hin" in
  let Hsc := fresh "Hsc" in
  let Hrun := fresh "Hrun" in
  let Hf := fresh "Hf" in
  let Hd := fresh "Hd" in
  let Hj := fresh "Hj" in
  let He := fresh "He" in
  let detail := fresh "detail" in
  let v := fresh "v" in
  let e := fresh "e" in
  let ns := fresh "ns" in
  let f := fresh "f" in
  let x := fresh "x" in
  let r := fresh "r" in
  let msg := fresh "msg" in
  let j := fresh "j" in
  let dd := fresh "why" in
  destruct (device_at w out) as [|dd|dd] eqn:Hdev;
  (destruct (input_at w inp) as [detail|v] eqn:Hin;
   [ rewrite (path_input_error w prog script inp out fs mods detail Hin)
   | destruct (script_at w script) as [|e|ns] eqn:Hsc;
     [ rewrite (path_no_spec w prog script inp out fs mods v Hin Hsc)
     | rewrite (path_load_raises w prog script inp out fs mods v e Hin Hsc);
       destruct (is_Exception e) eqn:He
     | destruct (ns !! "run") as [[f|x]|] eqn:Hrun;
       [ destruct (f v) as [e|r] eqn:Hf;
         [ rewrite (path_run_raises w prog script inp out fs mods v ns f e Hin Hsc Hrun Hf);
           destruct (is_Exception e) eqn:He
         | destruct (is_dict r) eqn:Hd;
           [ rewrite (path_write w prog script inp out fs mods v ns f r Hin Hsc Hrun Hf Hd);
             unfold write_json; rewrite Hdev;
             destruct (dumps (Some str) r) as [msg|j] eqn:Hj
           | rewrite (path_not_dict w prog script inp out fs mods v ns f r Hin Hsc Hrun Hf Hd) ] ]
       | no_run_path w prog script inp out fs mods v ns Hin Hsc Hrun
       | no_run_path w prog script inp out fs mods v ns Hin Hsc Hrun ] ] ]);
  unfold after_write_error; rewrite ?Hdev; cbn.

Lemma failure_message_stage script1 script2 f1 f2 :
  failure_message script1 f1 = failure_message script2 f2 -> stage f1 = stage f2.
Proof.
  destruct f1, f2; cbn; try reflexivity; intros H; discriminate H.
Qed.

(** X1.  When the script path gives no module spec (or a spec without a
    loader), the runner reports ["Cannot load script: <script_path>"] and
    exits with code 1 after looking the path up once: the module is not
    executed, [run] is not called, and the [sys.exit(1)] raised inside the
    [try] block is not taken for a load failure, so the output path is
    opened once only. *)
Theorem unloadable_script_reported w prog script inp out fs mods v :
  input_at w inp = ReadOk v ->
  script_at w script = NoSpec ->
  let r := execute w [prog; script; inp; out] fs mods in
  let message := "Cannot load script: " +:+ script in
  r.2 = Exited 1
  /\ trace r.1 = [OpenRead inp; FindSpec "user_script" script; OpenWrite out]
  /\ (device_at w out = Writable -> files r.1 !! out = Some (Doc (error_doc message)))
  /\ (device_at w out <> Writable -> stderr r.1 = [message]).
Proof.
  intros Hin Hsc. cbn zeta. erewrite path_no_spec by done. cbn [fst snd].
  repeat split.
  - by rewrite after_write_error_trace.
  - intros Hdev. by apply after_write_error_file.
  - intros Hdev. by rewrite after_write_error_stderr.
Qed.

Lemma unloadable_script_reported_witness :
  input_at (sample_world None Writable) "in.json" = ReadOk sample_inputs
  /\ script_at (sample_world None Writable) "notes.txt" = NoSpec
  /\ let r := execute (sample_world None Writable)
                ["runner.py"; "notes.txt"; "in.json"; "out.json"] ∅ initial_modules in
     let message := "Cannot load script: " +:+ "notes.txt" in
     r.2 = Exited 1
     /\ trace r.1 = [OpenRead "in.json"; FindSpec "user_script" "notes.txt"; OpenWrite "out.json"]
     /\ (device_at (sample_world None Writable) "out.json" = Writable ->
         files r.1 !! "out.json" = Some (Doc (error_doc message)))
     /\ (device_at (sample_world None Writable) "out.json" <> Writable ->
         stderr r.1 = [message]).
Proof.
  split; [reflexivity|]. split; [reflexivity|].
  apply (unloadable_script_reported (sample_world None Writable)
           "runner.py" "notes.txt" "in.json" "out.json" ∅ initial_modules sample_inputs);
    reflexivity.
Defined.



(** X3.  When writing the result fails (the open, the encoder or the
    device), whatever [run] returned is given up: the runner opens the
    output path a second time to report
    ["Failed to write output: <detail>"] and exits with code 1; if that
    write fails too the message is on the diagnostic stream. *)
Theorem write_failure_reported w prog script inp out fs mods v ns f result detail :
  input_at w inp = ReadOk v ->
  script_at w script = ExecOk ns ->
  ns !! "run" = Some (Callable f) ->
  f v = inr result ->
  is_dict result = true ->
  write_failure w out result = Some detail ->
  let r := execute w [prog; script; inp; out] fs mods in
  let message := "Failed to write output: " +:+ detail in
  r.2 = Exited 1
  /\ trace r.1 = [OpenRead inp; FindSpec "user_script" script;
                  ExecModule "user_script" script; CallRun v;
                  OpenWrite out; OpenWrite out]
  /\ (device_at w out = Writable -> files r.1 !! out = Some (Doc (error_doc message)))
  /\ (device_at w out <> Writable -> stderr r.1 = [message]).
Proof.
  intros Hin Hsc Hrun Hf Hd Hw. cbn zeta.
  destruct (path_write_fails w prog script inp out fs mods v ns f result detail)
    as (s' & -> & Htr & Herr & _); try done.
  cbn [fst snd]. repeat split.
  - by rewrite after_write_error_trace, Htr.
  - intros Hdev. by apply after_write_error_file.
  - intros Hdev. by rewrite after_write_error_stderr, Herr.
Qed.

Lemma write_failure_reported_witness :
  input_at (sample_world (Some (Callable run_tuple_key)) Writable) "in.json"
  = ReadOk sample_inputs
  /\ script_at (sample_world (Some (Callable run_tuple_key)) Writable) "script.py"
     = ExecOk {[ "run" := Callable run_tuple_key ]}
  /\ ({[ "run" := Callable run_tuple_key ]} : gmap string attr) !! "run"
     = Some (Callable run_tuple_key)
  /\ run_tuple_key sample_inputs
     = inr (PDict [(KOther (PyObject "tuple" "(1, 2)"), PInt 3)])
  /\ is_dict (PDict [(KOther (PyObject "tuple" "(1, 2)"), PInt 3)]) = true
  /\ write_failure (sample_world (Some (Callable run_tuple_key)) Writable) "out.json"
       (PDict [(KOther (PyObject "tuple" "(1, 2)"), PInt 3)])
     = Some "keys must be str, int, float, bool or None, not tuple"
  /\ (execute (sample_world (Some (Callable run_tuple_key)) Writable)
        ["runner.py"; "script.py"; "in.json"; "out.json"] ∅ initial_modules).2 = Exited 1.
Proof.
  split; [reflexivity|]. split; [reflexivity|]. split; [reflexivity|].
  split; [reflexivity|]. split; [reflexivity|]. split; [reflexivity|].
  apply (write_failure_reported (sample_world (Some (Callable run_tuple_key)) Writable)
           "runner.py" "script.py" "in.json" "out.json" ∅ initial_modules
           sample_inputs {[ "run" := Callable run_tuple_key ]} run_tuple_key
           (PDict [(KOther (PyObject "tuple" "(1, 2)"), PInt 3)])
           "keys must be str, int, float, bool or None, not tuple");
    reflexivity.
Defined.

(** X4.  The stages run in a fixed order and none is repeated: the input is
    read first, then the script is looked up, then executed, then [run] is
    called with the decoded input, and the output path is opened only after
    all of that, once or twice; an invocation stops after any of the first
    four steps but never skips one. *)
Theorem stages_in_order w prog script inp out fs mods :
  exists v k n,
    trace (execute w [prog; script; inp; out] fs mods).1
    = take k [OpenRead inp; FindSpec "user_script" script;
              ExecModule "user_script" script; CallRun v]
      ++ replicate n (OpenWrite out)
    /\ 1 <= k <= 4
    /\ n <= 2
    /\ (k = 4 -> input_at w inp = ReadOk v).
Proof.
  by_paths w prog script inp out fs mods.
  all: lazymatch goal with
       | Hin : input_at _ _ = ReadOk ?v |- _ =>
           first
             [ exists v, 4, 0; split; [reflexivity|]; repeat split; try lia; done
             | exists v, 4, 1; split; [reflexivity|]; repeat split; try lia; done
             | exists v, 4, 2; split; [reflexivity|]; repeat split; try lia; done
             | exists v, 3, 0; split; [reflexivity|]; repeat split; try lia; done
             | exists v, 3, 1; split; [reflexivity|]; repeat split; try lia; done
             | exists v, 2, 1; split; [reflexivity|]; repeat split; try lia; done ]
       | _ => exists PNone, 1, 1; split; [reflexivity|]; repeat split; try lia; done
       end.
Qed.

(** X12.  [run] is called at most once, and only when the input was decoded
    and the module loaded with a callable [run]; its argument is the decoded
    input value, unchanged. *)
Theorem run_called_only_when_ready w prog script inp out fs mods :
  run_calls (trace (execute w [prog; script; inp; out] fs mods).1) = []
  \/ (exists v ns f,
        input_at w inp = ReadOk v
        /\ script_at w script = ExecOk ns
        /\ ns !! "run" = Some (Callable f)
        /\ run_calls (trace (execute w [prog; script; inp; out] fs mods).1) = [v]).
Proof.
  by_paths w prog script inp out fs mods.
  all: try (left; reflexivity).
  all: right; eexists _, _, _; repeat split; eassumption || reflexivity.
Qed.

(** X5.  The runner changes no file but the one at the output path: the
    input file, the script and every other file are what they were, whatever
    the arguments and however the invocation ends. *)
Theorem other_files_untouched w argv fs mods path :
  (length argv = 4 -> path <> nth 3 argv "") ->
  files (execute w argv fs mods).1 !! path = fs !! path.
Proof.
  intros Hpath. destruct (decide (length argv = 4)) as [Hlen|Hlen].
  - destruct (argv_of_length_4 argv Hlen) as (prog & script & inp & out & ->).
    specialize (Hpath Hlen). cbn in Hpath.
    by_paths w prog script inp out fs mods.
    all: by rewrite ?lookup_insert_ne by done.
  - by rewrite path_usage.
Qed.

Lemma other_files_untouched_witness :
  (length sample_argv = 4 -> "in.json" <> nth 3 sample_argv "")
  /\ files (execute (sample_world (Some (Callable run_double)) Writable) sample_argv
              {[ "in.json" := Doc (JObj [("x", JInt 2)]) ]} initial_modules).1 !! "in.json"
     = ({[ "in.json" := Doc (JObj [("x", JInt 2)]) ]} : gmap string content) !! "in.json".
Proof.
  split; [intros _; discriminate|].
  apply (other_files_untouched (sample_world (Some (Callable run_double)) Writable)
           sample_argv {[ "in.json" := Doc (JObj [("x", JInt 2)]) ]} initial_modules
           "in.json").
  intros _; discriminate.
Defined.

(** X6.  With three arguments the runner prints at most one line to the
    diagnostic stream, and only when the output path cannot be written: on
    a writable output path the stream stays empty. *)
Theorem diagnostics_only_when_unwritable w prog script inp out fs mods :
  stderr (execute w [prog; script; inp; out] fs mods).1 = []
  \/ (device_at w out <> Writable
      /\ exists message, stderr (execute w [prog; script; inp; out] fs mods).1 = [message]).
Proof.
  by_paths w prog script inp out fs mods.
  all: try (left; reflexivity).
  all: right; split; [congruence|by eexists].
Qed.

(** X10.  An output path that cannot be opened is left exactly as it was,
    so a document of an earlier invocation survives a failed one; a path
    that opens but whose writes fail is left truncated (or untouched when
    the runner never got to open it). *)
Theorem unwritable_output_left_as_is w prog script inp out fs mods :
  (forall detail, device_at w out = OpenRaises detail ->
     files (execute w [prog; script; inp; out] fs mods).1 = fs)
  /\ (forall detail, device_at w out = WriteRaises detail ->
        files (execute w [prog; script; inp; out] fs mods).1 = fs
        \/ files (execute w [prog; script; inp; out] fs mods).1 !! out = Some Truncated).
Proof.
  split; intros d Hd.
  - by_paths w prog script inp out fs mods; try discriminate. all: reflexivity.
  - by_paths w prog script inp out fs mods; try discriminate.
    all: try (left; reflexivity).
    all: right; apply lookup_insert_eq.
Qed.

Lemma unwritable_output_left_as_is_witness :
  device_at (sample_world (Some (Callable run_double)) denied) "out.json"
  = OpenRaises "[Errno 13] Permission denied: 'out.json'"
  /\ files (execute (sample_world (Some (Callable run_double)) denied)
              ["runner.py"; "script.py"; "in.json"; "out.json"]
              {[ "out.json" := Doc (JObj [("y", JInt 0)]) ]} initial_modules).1
     = {[ "out.json" := Doc (JObj [("y", JInt 0)]) ]}.
Proof.
  split; [reflexivity|].
  destruct (unwritable_output_left_as_is (sample_world (Some (Callable run_double)) denied)
              "runner.py" "script.py" "in.json" "out.json"
              {[ "out.json" := Doc (JObj [("y", JInt 0)]) ]} initial_modules) as [H _].
  apply (H "[Errno 13] Permission denied: 'out.json'"). reflexivity.
Defined.



(** X7.  Exit code 0 has two causes only: the result was written (the
    output path holds its document), or user code itself left with
    [sys.exit(0)], in which case no file was touched.  An exit code of 0
    therefore does not by itself promise an output file. *)
Theorem exit_0_means_written_or_exited w prog script inp out fs mods :
  (execute w [prog; script; inp; out] fs mods).2 = Exited 0 ->
  (exists result j,
      succeeds w script inp out result j
      /\ files (execute w [prog; script; inp; out] fs mods).1 !! out = Some (Doc j))
  \/ (exists e,
        escapes w script inp e
        /\ exn_class e = SystemExitClass 0
        /\ files (execute w [prog; script; inp; out] fs mods).1 = fs).
Proof.
  destruct (invocation_cases w script inp out) as [(r & j & Hs)|[(f & Hf)|(e & He)]].
  - destruct (execute_succeeds w prog script inp out fs mods r j Hs) as (s & -> & Hfile & _).
    intros _. left. by exists r, j.
  - destruct (execute_fails w prog script inp out fs mods f Hf) as (s & -> & _).
    discriminate.
  - destruct (execute_escapes w prog script inp out fs mods e He) as (s & -> & Hfs & _).
    cbn [fst snd]. unfold status_of. intros Hst. right. exists e.
    destruct (exn_class e) as [|code|]; try discriminate.
    injection Hst as ->. done.
Qed.

Lemma exit_0_means_written_or_exited_witness :
  (execute (sample_world (Some (Callable run_exit)) Writable)
     ["runner.py"; "script.py"; "in.json"; "out.json"] ∅ initial_modules).2 = Exited 0
  /\ ((exists result j,
          succeeds (sample_world (Some (Callable run_exit)) Writable)
            "script.py" "in.json" "out.json" result j
          /\ files (execute (sample_world (Some (Callable run_exit)) Writable)
                      ["runner.py"; "script.py"; "in.json"; "out.json"] ∅ initial_modules).1
               !! "out.json" = Some (Doc j))
      \/ (exists e,
            escapes (sample_world (Some (Callable run_exit)) Writable) "script.py" "in.json" e
            /\ exn_class e = SystemExitClass 0
            /\ files (execute (sample_world (Some (Callable run_exit)) Writable)
                        ["runner.py"; "script.py"; "in.json"; "out.json"] ∅ initial_modules).1
               = ∅)).
Proof.
  split; [vm_compute; reflexivity|].
  apply (exit_0_means_written_or_exited (sample_world (Some (Callable run_exit)) Writable)
           "runner.py" "script.py" "in.json" "out.json" ∅ initial_modules).
  vm_compute; reflexivity.
Defined.



(** X14.  The exit codes of the runner's own making are 0 and 1: any other
    exit code was passed to [sys.exit] by user code. *)
Theorem exit_codes w argv fs mods code :
  (execute w argv fs mods).2 = Exited code ->
  code = 0%Z \/ code = 1%Z
  \/ (exists e, escapes w (nth 1 argv "") (nth 2 argv "") e
                /\ exn_class e = SystemExitClass code).
Proof.
  destruct (decide (length argv = 4)) as [Hlen|Hlen].
  2: { rewrite path_usage by done. intros [= <-]. by right; left. }
  destruct (argv_of_length_4 argv Hlen) as (prog & script & inp & out & ->). cbn [nth].
  destruct (invocation_cases w script inp out) as [(r & j & Hs)|[(f & Hf)|(e & He)]].
  - destruct (execute_succeeds w prog script inp out fs mods r j Hs) as (s & -> & _).
    intros [= <-]. by left.
  - destruct (execute_fails w prog script inp out fs mods f Hf) as (s & -> & _).
    intros [= <-]. by right; left.
  - destruct (execute_escapes w prog script inp out fs mods e He) as (s & -> & _).
    cbn [snd]. unfold status_of. intros Hst. right; right. exists e. split; [done|].
    destruct (exn_class e); try discriminate. by injection Hst as ->.
Qed.

Lemma exit_codes_witness :
  (execute (sample_world (Some (Callable run_raise)) Writable) sample_argv
     ∅ initial_modules).2 = Exited 1
  /\ (1 = 0 \/ 1 = 1
      \/ (exists e, escapes (sample_world (Some (Callable run_raise)) Writable)
                      (nth 1 sample_argv "") (nth 2 sample_argv "") e
                    /\ exn_class e = SystemExitClass 1))%Z.
Proof.
  split; [vm_compute; reflexivity|].
  apply (exit_codes (sample_world (Some (Callable run_raise)) Writable) sample_argv
           ∅ initial_modules 1).
  vm_compute; reflexivity.
Defined.

(** X11.  The error text identifies the stage that failed: when two
    invocations end on error paths and leave the same content in their
    (writable) output files, they failed at the same stage of [main]. *)
Theorem error_text_identifies_stage
    w1 prog1 script1 inp1 out1 fs1 mods1 f1 w2 prog2 script2 inp2 out2 fs2 mods2 f2 :
  fails w1 script1 inp1 out1 f1 ->
  fails w2 script2 inp2 out2 f2 ->
  device_at w1 out1 = Writable ->
  device_at w2 out2 = Writable ->
  files (execute w1 [prog1; script1; inp1; out1] fs1 mods1).1 !! out1
  = files (execute w2 [prog2; script2; inp2; out2] fs2 mods2).1 !! out2 ->
  stage f1 = stage f2.
Proof.
  intros Hf1 Hf2 Hdev1 Hdev2.
  destruct (execute_fails w1 prog1 script1 inp1 out1 fs1 mods1 f1 Hf1) as (s1 & -> & _).
  destruct (execute_fails w2 prog2 script2 inp2 out2 fs2 mods2 f2 Hf2) as (s2 & -> & _).
  cbn [fst]. rewrite !after_write_error_file by done.
  intros [= Hmsg]. by eapply failure_message_stage.
Qed.

Lemma error_text_identifies_stage_witness :
  fails (sample_world None Writable) "script.py" "missing.json" "out.json"
    (InputError "[Errno 2] No such file or directory: 'missing.json'")
  /\ fails (sample_world None Writable) "other.py" "missing.json" "out2.json"
       (InputError "[Errno 2] No such file or directory: 'missing.json'")
  /\ device_at (sample_world None Writable) "out.json" = Writable
  /\ device_at (sample_world None Writable) "out2.json" = Writable
  /\ files (execute (sample_world None Writable)
              ["runner.py"; "script.py"; "missing.json"; "out.json"] ∅ initial_modules).1
       !! "out.json"
     = files (execute (sample_world None Writable)
                ["runner.py"; "other.py"; "missing.json"; "out2.json"] ∅ initial_modules).1
         !! "out2.json"
  /\ stage (InputError "[Errno 2] No such file or directory: 'missing.json'")
     = stage (InputError "[Errno 2] No such file or directory: 'missing.json'").
Proof.
  assert (fails (sample_world None Writable) "script.py" "missing.json" "out.json"
            (InputError "[Errno 2] No such file or directory: 'missing.json'")) as H1.
  { apply fails_input. reflexivity. }
  assert (fails (sample_world None Writable) "other.py" "missing.json" "out2.json"
            (InputError "[Errno 2] No such file or directory: 'missing.json'")) as H2.
  { apply fails_input. reflexivity. }
  split; [exact H1|]. split; [exact H2|]. split; [reflexivity|]. split; [reflexivity|].
  split; [vm_compute; reflexivity|].
  apply (error_text_identifies_stage
           (sample_world None Writable) "runner.py" "script.py" "missing.json" "out.json"
           ∅ initial_modules _
           (sample_world None Writable) "runner.py" "other.py" "missing.json" "out2.json"
           ∅ initial_modules _ H1 H2); reflexivity.
Defined.

(** X13.  [write_error] replaces what the output path holds: on a writable
    path two reports in a row leave the second error object, print nothing,
    open the path once each and leave every other file alone. *)
Theorem write_error_last_wins w path m1 m2 s :
  device_at w path = Writable ->
  exists s1 s2,
    write_error w path m1 s = (s1, inr tt)
    /\ write_error w path m2 s1 = (s2, inr tt)
    /\ files s2 !! path = Some (Doc (error_doc m2))
    /\ (forall other, other <> path -> files s2 !! other = files s !! other)
    /\ stderr s2 = stderr s
    /\ trace s2 = trace s ++ [OpenWrite path; OpenWrite path].
Proof.
  intros Hdev. eexists _, _. split; [apply write_error_eq|]. split; [apply write_error_eq|].
  unfold after_write_error. rewrite Hdev. cbn. repeat split.
  - apply lookup_insert_eq.
  - intros other Hne. by rewrite !lookup_insert_ne by done.
  - by rewrite <- app_assoc.
Qed.

Lemma write_error_last_wins_witness :
  device_at (sample_world None Writable) "out.json" = Writable
  /\ exists s1 s2,
       write_error (sample_world None Writable) "out.json" "first" (start ∅ initial_modules)
       = (s1, inr tt)
       /\ write_error (sample_world None Writable) "out.json" "second" s1 = (s2, inr tt)
       /\ files s2 !! "out.json" = Some (Doc (error_doc "second"))
       /\ (forall other, other <> "out.json" ->
             files s2 !! other = files (start ∅ initial_modules) !! other)
       /\ stderr s2 = stderr (start ∅ initial_modules)
       /\ trace s2 = trace (start ∅ initial_modules)
                     ++ [OpenWrite "out.json"; OpenWrite "out.json"].
Proof.
  split; [reflexivity|].
  apply (write_error_last_wins (sample_world None Writable) "out.json" "first" "second"
           (start ∅ initial_modules)).
  reflexivity.
Defined.
